(** * NewUpload: the upload widget of the worksheet front end

    A shallow embedding of
    [frontend/src/components/worksheets/NewUpload/NewUpload.jsx]:
    the query-string builder [getQueryParams], the component's form state
    with React's merging [setState], the tag handlers of the chip input, and
    the two-request upload flow [uploadFile] with its nested jQuery
    callbacks. *)

From Stdlib Require Import ZArith QArith List String Bool Lia DecimalString.
Import ListNotations.

Local Open Scope string_scope.
Local Open Scope list_scope.
Local Open Scope Z_scope.

(** ** JavaScript values and arrays *)

Module JS.

(** A value as a helper receives it. [Undefined] is what reading a
    property that the object does not have gives, and what a parameter
    is when the call leaves the argument out. Objects and functions are
    not told apart. *)
Inductive value : Type :=
| Undefined
| Null
| Str (s : string)
| Num (n : Z)
| Object.

(** [ToIntegerOrInfinity] followed by the clamping that
    [Array.prototype.slice] applies to each of its bounds: a negative
    bound counts from the end and stops at 0, any other stops at the
    length. *)
Definition clamp (len rel : Z) : Z :=
  if rel <? 0 then Z.max (len + rel) 0 else Z.min rel len.

(** [arr.slice(start, stop)]: the elements at positions [k .. final-1]
    where [k] and [final] are the clamped bounds; empty when
    [final <= k]. *)
Definition slice {A} (arr : list A) (start stop : Z) : list A :=
  let len := Z.of_nat (List.length arr) in
  let k := clamp len start in
  let final := clamp len stop in
  firstn (Z.to_nat (final - k)) (skipn (Z.to_nat k) arr).

(** [arr.slice(start)]: the missing second bound is the length. *)
Definition slice_from {A} (arr : list A) (start : Z) : list A :=
  slice arr start (Z.of_nat (List.length arr)).

End JS.

(** ** Form state *)

(** [this.state]. The constructor spreads [defaultConfig] only, so [url] is
    absent ([None]) until the clone field is edited. *)
Record State : Type := mkState {
  url : option string;
  name : string;
  description : string;
  tags : list string;
}.

(** The object handed to [setState]: each property is present or not. *)
Record Patch : Type := mkPatch {
  set_url : option string;
  set_name : option string;
  set_description : option string;
  set_tags : option (list string);
}.

Definition merge_field {A} (old : A) (new : option A) : A :=
  match new with
  | Some v => v
  | None => old
  end.

(** React's shallow merge of a patch into the state. *)
Definition merge (s : State) (p : Patch) : State :=
  {| url := match set_url p with Some u => Some u | None => url s end;
     name := merge_field (name s) (set_name p);
     description := merge_field (description s) (set_description p);
     tags := merge_field (tags s) (set_tags p) |}.

(** [defaultConfig = { name: 'untitled-upload', description: '', tags: [] }] *)
Definition defaultConfig : Patch :=
  {| set_url := None;
     set_name := Some "untitled-upload";
     set_description := Some "";
     set_tags := Some [] |}.

(** [this.state = { ...this.defaultConfig }] *)
Definition initialState : State :=
  merge {| url := None; name := ""; description := ""; tags := [] |}
        defaultConfig.

(** The state updaters that [render] wires to the controls. Each is the
    argument of a [setState] call: a function from the state to a patch
    (a constant function where the source passes an object). *)

(** Clear button: [this.setState(this.defaultConfig)] *)
Definition onClear : State -> Patch := fun _ => defaultConfig.

(** [onValueChange={(value) => this.setState({ name: value })}] *)
Definition onNameChange (value : string) : State -> Patch :=
  fun _ => {| set_url := None; set_name := Some value;
              set_description := None; set_tags := None |}.

(** [onValueChange={(value) => this.setState({ description: value })}] *)
Definition onDescriptionChange (value : string) : State -> Patch :=
  fun _ => {| set_url := None; set_name := None;
              set_description := Some value; set_tags := None |}.

(** [onValueChange={(value) => this.setState({ url: value })}] *)
Definition onUrlChange (value : string) : State -> Patch :=
  fun _ => {| set_url := Some value; set_name := None;
              set_description := None; set_tags := None |}.

(** [onValueAdd={(value) => this.setState(
      (state) => ({ tags: [...state.tags, value] }))}] *)
Definition onValueAdd (value : string) : State -> Patch :=
  fun state => {| set_url := None; set_name := None; set_description := None;
                  set_tags := Some (tags state ++ [value]) |}.

(** [onValueDelete={(value, idx) => this.setState(
      (state) => ({ tags: [...state.tags.slice(0, idx),
                           ...state.tags.slice(idx+1)] }))}] *)
Definition onValueDelete (value : string) (idx : Z) : State -> Patch :=
  fun state => {| set_url := None; set_name := None; set_description := None;
                  set_tags := Some (JS.slice (tags state) 0 idx
                                    ++ JS.slice_from (tags state) (idx + 1)) |}.

(** [this.setState(updater)] *)
Definition setState (updater : State -> Patch) (s : State) : State :=
  merge s (updater s).

(** The form shows the default tuple: the default name, no description, no
    tag and no URL (the property absent, or the empty string). *)
Definition is_default (s : State) : Prop :=
  name s = "untitled-upload" /\ description s = "" /\ tags s = []
  /\ (url s = None \/ url s = Some "").

(** ** Requests, replies and the objects the callbacks read *)

Inductive Method : Type := POST | PUT.

Inductive Body : Type :=
| Text (s : string)
| Blob (bytes : list Byte.byte).

(** The settings object of a [$.ajax] call (the properties that reach the
    server). *)
Record AjaxSettings : Type := mkAjax {
  req_url : string;
  req_type : Method;
  req_contentType : string;
  req_data : Body;
}.

(** One element of the [data] array of a reply. *)
Record Resource : Type := mkResource { id : string }.

(** The parsed reply handed to a [success] callback. *)
Record Response : Type := mkResponse { data : list Resource }.

(** The [jqXHR] handed to an [error] callback. *)
Record XHR : Type := mkXHR { responseText : string }.

(** How a request ends: jQuery calls [success], or [error], or neither
    ever. *)
Inductive Reply : Type :=
| Success (d : Response)
| Failure (x : XHR)
| Pending.

(** The selected file: [file.name]; its bytes come from the [FileReader]. *)
Record File : Type := mkFile { file_name : string }.

(** The component's props. [reloadWorksheet] is the parent's callback; a
    call of it is an observable event of the run. *)
Record Props : Type := mkProps {
  worksheetUUID : string;
  after_sort_key : string;
}.

(** The component instance [this]. *)
Record Component : Type := mkComponent {
  props : Props;
  state : State;
}.

(** A [FileReader] whose load has finished. *)
Record FileReader : Type := mkReader { result : list Byte.byte }.

(** [this.<key>] as a value passed on to a helper: the instance fields and
    the handlers that the class body and [render] assign, and what
    [React.Component] provides, are objects; every other property is
    missing. *)
Definition instance_get (this : Component) (key : string) : JS.value :=
  if existsb (String.eqb key)
       ["props"; "state"; "defaultConfig"; "dropFile"; "dropDir";
        "highlight"; "unhighlight"; "uploadFile"; "inputFile"; "inputDir";
        "context"; "refs"; "updater"; "setState"; "forceUpdate"; "render"]
  then JS.Object
  else JS.Undefined.

(** [reader.<key>] for a [FileReader] after [onload]: [result] is the
    buffer, [onload] the handler assigned by [uploadFile], [readyState] is
    [DONE = 2], [error] is [null], the other handlers are [null]; every
    other property is missing. *)
Definition reader_get (reader : FileReader) (key : string) : JS.value :=
  if existsb (String.eqb key) ["result"; "onload"] then JS.Object
  else if String.eqb key "readyState" then JS.Num 2
  else if existsb (String.eqb key)
            ["error"; "onabort"; "onerror"; "onloadstart"; "onloadend";
             "onprogress"]
  then JS.Null
  else JS.Undefined.

(** ** Handlers as trees of effects *)

(** The body of an event handler or of a callback: the effects in program
    order, each followed by the rest of the body [k]. [Ajax] and
    [ReadAsArrayBuffer] register callbacks, which run after the current
    body has returned. [TypeError] is an uncaught exception: it ends the
    body. *)
Inductive Task : Type :=
| Return
| TypeError
| This (k : Component -> Task)
| SetState (updater : State -> Patch) (k : Task)
| Alert (text : string) (k : Task)
| ReloadWorksheet (k : Task)
| Ajax (settings : AjaxSettings)
       (success : Response -> Task) (error : XHR -> Task) (k : Task)
| ReadAsArrayBuffer (file : File) (onload : FileReader -> Task) (k : Task).

(** What the page and the network can observe of a run, in order. *)
Inductive Event : Type :=
| Sent (s : AjaxSettings)
| Succeeded (s : AjaxSettings) (d : Response)
| Failed (s : AjaxSettings) (x : XHR)
| ReadStarted (f : File)
| Loaded (f : File) (bytes : list Byte.byte)
| Alerted (text : string)
| Reloaded
| Uncaught.

(** The world outside the component: how the server answers each request,
    and whether a file can be read ([None]: the load fails and [onload]
    never fires). *)
Record Env : Type := mkEnv {
  server : AjaxSettings -> Reply;
  disk : File -> option (list Byte.byte);
}.

(** Runs a body from the instance [c]: the instance afterwards and the
    events. A registered callback runs once the rest of the body is
    done. *)
Fixpoint run (env : Env) (t : Task) (c : Component)
  : Component * list Event :=
  match t with
  | Return => (c, [])
  | TypeError => (c, [Uncaught])
  | This k => run env (k c) c
  | SetState updater k =>
      run env k {| props := props c; state := setState updater (state c) |}
  | Alert text k =>
      let (c', tr) := run env k c in (c', Alerted text :: tr)
  | ReloadWorksheet k =>
      let (c', tr) := run env k c in (c', Reloaded :: tr)
  | Ajax settings success error k =>
      let (c1, tr1) := run env k c in
      match server env settings with
      | Success d =>
          let (c2, tr2) := run env (success d) c1 in
          (c2, Sent settings :: tr1 ++ Succeeded settings d :: tr2)
      | Failure x =>
          let (c2, tr2) := run env (error x) c1 in
          (c2, Sent settings :: tr1 ++ Failed settings x :: tr2)
      | Pending => (c1, Sent settings :: tr1)
      end
  | ReadAsArrayBuffer file onload k =>
      let (c1, tr1) := run env k c in
      match disk env file with
      | Some bytes =>
          let (c2, tr2) := run env (onload {| result := bytes |}) c1 in
          (c2, ReadStarted file :: tr1 ++ Loaded file bytes :: tr2)
      | None => (c1, ReadStarted file :: tr1)
      end
  end.

(** The object that [getQueryParams] hands to [$.param]. *)
Record QueryParams : Type := mkQueryParams {
  finalize : Z;
  filename : string;
  unpack : Z;
}.

(** What the module imports and calls: the helpers of
    [util/worksheet_utils], [JSON.stringify] on the metadata object and
    jQuery's [$.param] on the query object. The component's code is the
    same for any of them. *)
Class Imports : Type := mkImports {
  Metadata : Type;
  createDefaultBundleName : string -> string;
  pathIsArchive : string -> bool;
  getArchiveExt : string -> string;
  getDefaultBundleMetadata : string -> Metadata;
  createAlertText : JS.value -> JS.value -> JS.value -> string;
  JSON_stringify : Metadata -> string;
  jQuery_param : QueryParams -> string;
}.

(** ** Stand-ins for the helpers that are not in this file *)

Module Sample.

(** [name.endsWith(suffix)] *)
Definition endsWith (name suffix : string) : bool :=
  let n := String.length name in
  let m := String.length suffix in
  if (n <? m)%nat then false
  else String.eqb (substring (n - m) m name) suffix.

(** Modelled from the spec: the archive-extension table of
    [util/worksheet_utils], which is not among the sources. The spec gives
    [data.zip] as an archive and [notes.txt] as none. *)
Definition ARCHIVE_EXTS : list string := [".tar.gz"; ".tgz"; ".zip"].

(** Modelled from the spec: [pathIsArchive] of [util/worksheet_utils]
    (the archive-extension detection utility): the name ends in a
    recognized archive extension. *)
Definition pathIsArchive (name : string) : bool :=
  existsb (endsWith name) ARCHIVE_EXTS.

(** Modelled from the spec: [getArchiveExt] of [util/worksheet_utils]:
    the recognized extension the name ends in, empty when there is
    none. *)
Definition getArchiveExt (name : string) : string :=
  match find (endsWith name) ARCHIVE_EXTS with
  | Some ext => ext
  | None => ""
  end.

(** Modelled from the spec: [createDefaultBundleName] of
    [util/worksheet_utils] (the derived default name): the name without
    its archive extension, so that appending the extension preserves the
    suffix, and a name that is no archive as it is. *)
Definition createDefaultBundleName (name : string) : string :=
  substring 0 (String.length name - String.length (getArchiveExt name)) name.

(** Modelled from the spec: [getDefaultBundleMetadata] of
    [util/worksheet_utils] (metadata derived from the filename), kept to
    the derived name, and a serialiser that writes just that. *)
Definition Metadata : Type := string.
Definition getDefaultBundleMetadata (name : string) : Metadata :=
  createDefaultBundleName name.
Definition JSON_stringify (m : Metadata) : string := m.

Definition show (v : JS.value) : string :=
  match v with
  | JS.Undefined => "undefined"
  | JS.Null => "null"
  | JS.Str s => s
  | JS.Num n => NilZero.string_of_int (Z.to_int n)
  | JS.Object => "[object Object]"
  end.

(** Modelled from the spec: [createAlertText] of [util/worksheet_utils]:
    a human-readable text combining the URL, the server's raw response
    text and the advice when there is one. *)
Definition createAlertText (requestURL responseText solution : JS.value)
  : string :=
  "request failed: " ++ show requestURL
  ++ " server response: " ++ show responseText
  ++ match solution with
     | JS.Undefined => ""
     | _ => " recommendation: " ++ show solution
     end.

(** [$.param] on the three scalar properties, for values that need no
    percent-encoding. *)
Definition jQuery_param (q : QueryParams) : string :=
  "finalize=" ++ NilZero.string_of_int (Z.to_int (finalize q))
  ++ "&filename=" ++ filename q
  ++ "&unpack=" ++ NilZero.string_of_int (Z.to_int (unpack q)).

Definition imports : Imports :=
  mkImports Metadata createDefaultBundleName pathIsArchive getArchiveExt
            getDefaultBundleMetadata createAlertText JSON_stringify
            jQuery_param.

(** A component, two files and three worlds to run the flow in. *)
Definition component : Component :=
  {| props := {| worksheetUUID := "0x5f2a"; after_sort_key := "40" |};
     state := {| url := Some "https://worksheets.example/bundles/0x1d";
                 name := "results"; description := "first run";
                 tags := ["nlp"; "baseline"] |} |}.

Definition data_zip : File := {| file_name := "data.zip" |}.
Definition notes_txt : File := {| file_name := "notes.txt" |}.

Definition created : Response := {| data := [{| id := "0x9c41" |}] |}.
Definition refused : XHR := {| responseText := "403 Forbidden" |}.
Definition bytes : list Byte.byte := [Byte.x50; Byte.x4b].

(** Both requests succeed. *)
Definition all_well : Env :=
  {| server := fun _ => Success created;
     disk := fun _ => Some bytes |}.

(** The metadata-creation request fails. *)
Definition create_fails : Env :=
  {| server := fun _ => Failure refused;
     disk := fun _ => Some bytes |}.

(** The content-upload request fails. *)
Definition upload_fails : Env :=
  {| server := fun s => match req_type s with
                        | POST => Success created
                        | PUT => Failure refused
                        end;
     disk := fun _ => Some bytes |}.

End Sample.

(** ** The upload flow *)

Section Upload.

Context {imports : Imports}.

(** The local [queryParams] of [getQueryParams]. *)
Definition queryParams (filename : string) : QueryParams :=
  let formattedFilename := createDefaultBundleName filename in
  {| finalize := 1;
     filename := if pathIsArchive filename
                 then (formattedFilename ++ getArchiveExt filename)%string
                 else formattedFilename;
     unpack := if pathIsArchive filename then 1 else 0 |}.

Definition getQueryParams (filename : string) : string :=
  jQuery_param (queryParams filename).

(** The settings of the metadata-creation request. *)
Definition createRequest (p : Props) (file : File) : AjaxSettings :=
  let createBundleData := getDefaultBundleMetadata (file_name file) in
  {| req_url := ("/rest/bundles?worksheet=" ++ worksheetUUID p
                 ++ "&after_sort_key=" ++ after_sort_key p)%string;
     req_data := Text (JSON_stringify createBundleData);
     req_contentType := "application/json";
     req_type := POST |}.

(** The settings of the content-upload request, built in [reader.onload]. *)
Definition contentRequest (bundleUuid : string) (file : File)
           (reader : FileReader) : AjaxSettings :=
  let bytesArray := result reader in
  let url := ("/rest/bundles/" ++ bundleUuid ++ "/contents/blob/?"
              ++ getQueryParams (file_name file))%string in
  {| req_url := url;
     req_type := PUT;
     req_contentType := "application/octet-stream";
     req_data := Blob bytesArray |}.

(** [reader.onload]: send the bytes; reload on success, alert on error. *)
Definition onload (bundleUuid : string) (file : File)
           (reader : FileReader) : Task :=
  Ajax (contentRequest bundleUuid file reader)
    (fun _ => This (fun this => ReloadWorksheet Return))
    (fun jqHXR =>
       Alert (createAlertText (reader_get reader "url")
                              (JS.Str (responseText jqHXR))
                              (JS.Str "refresh and try again."))
             Return)
    Return.

(** The [success] callback of the metadata-creation request.
    [data.data[0].id] throws when the array is empty. *)
Definition onCreated (file : File) (d : Response) : Task :=
  match nth_error (data d) 0 with
  | None => TypeError
  | Some first =>
      let bundleUuid := id first in
      ReadAsArrayBuffer file (onload bundleUuid file) Return
  end.

(** The [error] callback of the metadata-creation request. The arrow
    function keeps the component as [this]. *)
Definition onCreateError (jqHXR : XHR) : Task :=
  This (fun this =>
    Alert (createAlertText (instance_get this "url")
                           (JS.Str (responseText jqHXR))
                           JS.Undefined)
          Return).

(** [uploadFile = (file) => { ... }]; [None] is a [null] or [undefined]
    argument. *)
Definition uploadFile (file : option File) : Task :=
  match file with
  | None => Return
  | Some file =>
      This (fun this =>
        Ajax (createRequest (props this) file)
             (onCreated file)
             onCreateError
             Return)
  end.

(** ** Reading a run *)

Definition is_method (m : Method) (s : AjaxSettings) : bool :=
  match m, req_type s with
  | POST, POST | PUT, PUT => true
  | _, _ => false
  end.

(** The alerts of a run, in order. *)
Fixpoint alerts (tr : list Event) : list string :=
  match tr with
  | [] => []
  | Alerted text :: tr' => text :: alerts tr'
  | _ :: tr' => alerts tr'
  end.

(** How many times [reloadWorksheet] was called. *)
Fixpoint reloads (tr : list Event) : nat :=
  match tr with
  | [] => 0%nat
  | Reloaded :: tr' => S (reloads tr')
  | _ :: tr' => reloads tr'
  end.

(** The requests of method [m] that were issued. *)
Fixpoint sent (m : Method) (tr : list Event) : list AjaxSettings :=
  match tr with
  | [] => []
  | Sent s :: tr' => if is_method m s then s :: sent m tr' else sent m tr'
  | _ :: tr' => sent m tr'
  end.

(** The requests of method [m] whose [success] callback ran. *)
Fixpoint succeeded (m : Method) (tr : list Event) : list AjaxSettings :=
  match tr with
  | [] => []
  | Succeeded s _ :: tr' =>
      if is_method m s then s :: succeeded m tr' else succeeded m tr'
  | _ :: tr' => succeeded m tr'
  end.

(** The requests of method [m] whose [error] callback ran. *)
Fixpoint failed (m : Method) (tr : list Event) : list AjaxSettings :=
  match tr with
  | [] => []
  | Failed s _ :: tr' =>
      if is_method m s then s :: failed m tr' else failed m tr'
  | _ :: tr' => failed m tr'
  end.

(** One upload attempt: [uploadFile(file)] on the instance [c] in the
    world [env]. *)
Definition attempt (env : Env) (file : option File) (c : Component)
  : Component * list Event :=
  run env (uploadFile file) c.


(** Bodies that never call [setState], in any callback. *)
Inductive keeps_state : Task -> Prop :=
| ks_Return : keeps_state Return
| ks_TypeError : keeps_state TypeError
| ks_This k : (forall c, keeps_state (k c)) -> keeps_state (This k)
| ks_Alert text k : keeps_state k -> keeps_state (Alert text k)
| ks_Reload k : keeps_state k -> keeps_state (ReloadWorksheet k)
| ks_Ajax settings success error k :
    (forall d, keeps_state (success d)) ->
    (forall x, keeps_state (error x)) ->
    keeps_state k ->
    keeps_state (Ajax settings success error k)
| ks_Read file onload k :
    (forall reader, keeps_state (onload reader)) ->
    keeps_state k ->
    keeps_state (ReadAsArrayBuffer file onload k).

(** ** The shape of an upload attempt *)

(** The alert of the [error] callback of the content upload. *)
Definition uploadAlert (x : XHR) : Event :=
  Alerted (createAlertText JS.Undefined (JS.Str (responseText x))
                           (JS.Str "refresh and try again.")).

(** The alert of the [error] callback of the metadata creation. *)
Definition createAlert (x : XHR) : Event :=
  Alerted (createAlertText JS.Undefined (JS.Str (responseText x))
                           JS.Undefined).

(** The events from [reader.onload] on. *)
Definition uploadEvents (env : Env) (put : AjaxSettings) : list Event :=
  Sent put ::
  match server env put with
  | Success d => [Succeeded put d; Reloaded]
  | Failure x => [Failed put x; uploadAlert x]
  | Pending => []
  end.

(** The events from the [success] callback of the metadata creation on. *)
Definition createdEvents (env : Env) (file : File) (d : Response)
  : list Event :=
  match nth_error (data d) 0 with
  | None => [Uncaught]
  | Some first =>
      ReadStarted file ::
      match disk env file with
      | Some bytes =>
          Loaded file bytes ::
          uploadEvents env (contentRequest (id first) file
                                           {| result := bytes |})
      | None => []
      end
  end.

(** The events of a whole attempt on a file. *)
Definition attemptEvents (env : Env) (file : File) (p : Props)
  : list Event :=
  let post := createRequest p file in
  Sent post ::
  match server env post with
  | Success d => Succeeded post d :: createdEvents env file d
  | Failure x => [Failed post x; createAlert x]
  | Pending => []
  end.

(** ** Drag and drop, and the controls *)

(** What a drag handler touches of its event [e]: the opacity of
    [e.target], the two flags that [preventDefault] and [stopPropagation]
    set, and the files of [e.dataTransfer]. *)
Record DragEvent : Type := mkDragEvent {
  target_opacity : Q;
  defaultPrevented : bool;
  propagationStopped : bool;
  dataTransfer_files : list File;
}.

(** [highlight = (e) => { e.target.style.opacity = .5; ... }] *)
Definition highlight (e : DragEvent) : DragEvent :=
  {| target_opacity := 1 # 2;
     defaultPrevented := true;
     propagationStopped := true;
     dataTransfer_files := dataTransfer_files e |}.

(** [unhighlight = (e) => { e.target.style.opacity = 1.0; ... }] *)
Definition unhighlight (e : DragEvent) : DragEvent :=
  {| target_opacity := 1;
     defaultPrevented := true;
     propagationStopped := true;
     dataTransfer_files := dataTransfer_files e |}.

(** [dropDir]: reads [e.dataTransfer.files] into a local that nothing
    uses, then does what [unhighlight] does. The body has no other
    effect. *)
Definition dropDir (e : DragEvent) : DragEvent * Task :=
  let dt_files := dataTransfer_files e in
  ({| target_opacity := 1;
      defaultPrevented := true;
      propagationStopped := true;
      dataTransfer_files := dataTransfer_files e |},
   Return).

(** [dropFile], the [onDrop] and [onChange] handler of the file box:
    [inputFiles] is [this.inputFile.files], the selection of the hidden
    input, and [files[0]] is [undefined] when it is empty. (The
    [console.log] call is left out.) *)
Definition dropFile (inputFiles : list File) (e : DragEvent)
  : DragEvent * Task :=
  ({| target_opacity := 1;
      defaultPrevented := true;
      propagationStopped := true;
      dataTransfer_files := dataTransfer_files e |},
   This (fun this =>
     let files := inputFiles in
     uploadFile (nth_error files 0))).

(** A new event on a target whose opacity is [o]. *)
Definition dragEvent (o : Q) (files : list File) : DragEvent :=
  {| target_opacity := o; defaultPrevented := false;
     propagationStopped := false; dataTransfer_files := files |}.

(** What the user can do to the mounted component: the two buttons, the
    three text inputs, the chip input, and the drag events of the two
    boxes (the directory box and the file box share [highlight] and
    [unhighlight]). *)
Inductive Action : Type :=
| ClickClear
| ClickConfirm
| ChangeName (value : string)
| ChangeDescription (value : string)
| ChangeUrl (value : string)
| AddTag (value : string)
| DeleteTag (value : string) (idx : Z)
| DragOver
| DragLeave
| DropOnDir (dropped : list File)
| DropOnFile (selected dropped : list File).

(** The [setState] argument of the actions that edit the form. *)
Definition updaterOf (a : Action) : option (State -> Patch) :=
  match a with
  | ClickClear => Some onClear
  | ChangeName value => Some (onNameChange value)
  | ChangeDescription value => Some (onDescriptionChange value)
  | ChangeUrl value => Some (onUrlChange value)
  | AddTag value => Some (onValueAdd value)
  | DeleteTag value idx => Some (onValueDelete value idx)
  | _ => None
  end.

(** The body that [render] wires to each action. *)
Definition handler (a : Action) : Task :=
  match a with
  | ClickConfirm => Alert "New Upload Confirmed" Return
  | DragOver | DragLeave => Return
  | DropOnDir dropped => snd (dropDir (dragEvent 1 dropped))
  | DropOnFile selected dropped =>
      snd (dropFile selected (dragEvent 1 dropped))
  | _ =>
      match updaterOf a with
      | Some updater => SetState updater Return
      | None => Return
      end
  end.

(** A session: the user's actions in order, each in the world that
    answers it; the callbacks of an action are done before the next
    action. *)
Fixpoint session (steps : list (Env * Action)) (c : Component)
  : Component * list Event :=
  match steps with
  | [] => (c, [])
  | (env, a) :: rest =>
      let (c1, tr1) := run env (handler a) c in
      let (c2, tr2) := session rest c1 in
      (c2, tr1 ++ tr2)
  end.

(** The form after the edits among the actions, in order. *)
Definition edit (s : State) (a : Action) : State :=
  match updaterOf a with
  | Some updater => setState updater s
  | None => s
  end.

(** The last URL typed into the clone field, if any. *)
Fixpoint lastUrl (actions : list Action) : option string :=
  match actions with
  | [] => None
  | a :: rest =>
      match lastUrl rest, a with
      | Some u, _ => Some u
      | None, ChangeUrl value => Some value
      | None, _ => None
      end
  end.

(** The drops on the file box that find a file selected. *)
Definition selects (a : Action) : bool :=
  match a with
  | DropOnFile (_ :: _) _ => true
  | _ => false
  end.

Definition isConfirm (a : Action) : bool :=
  match a with
  | ClickConfirm => true
  | _ => false
  end.

(** The elements of the two boxes that [render] builds: each box is a
    [div] that carries the drag handlers and holds a hidden file input
    and a label [div]. An event that starts on the input or on the label
    bubbles to the handlers of its box with that element as [e.target]. *)
Inductive Element : Type :=
| DirBox | DirInput | DirLabel
| FileBox | FileInput | FileLabel.

Definition Element_eqb (a b : Element) : bool :=
  match a, b with
  | DirBox, DirBox | DirInput, DirInput | DirLabel, DirLabel
  | FileBox, FileBox | FileInput, FileInput | FileLabel, FileLabel => true
  | _, _ => false
  end.

(** The element is the directory box or inside it. *)
Definition inDirBox (el : Element) : bool :=
  match el with
  | DirBox | DirInput | DirLabel => true
  | _ => false
  end.

(** The element is the file box or inside it. *)
Definition inFileBox (el : Element) : bool := negb (inDirBox el).

(** [style.opacity] of each element. *)
Definition Page : Type := Element -> Q.

(** The event as its handler leaves it, for an action whose event starts
    on [target]: both boxes carry [highlight] and [unhighlight], the
    directory box carries [dropDir] and the file box [dropFile] (its
    input too, as [onChange]). An action that is no drag event, or a drop
    that starts outside the box of its handler, runs none of the four. *)
Definition handled (page : Page) (target : Element) (a : Action)
  : option DragEvent :=
  match a with
  | DragOver => Some (highlight (dragEvent (page target) []))
  | DragLeave => Some (unhighlight (dragEvent (page target) []))
  | DropOnDir dropped =>
      if inDirBox target
      then Some (fst (dropDir (dragEvent (page target) dropped)))
      else None
  | DropOnFile selected dropped =>
      if inFileBox target
      then Some (fst (dropFile selected (dragEvent (page target) dropped)))
      else None
  | _ => None
  end.

(** The page after one action whose event starts on [target]: the
    handler writes [e.target.style.opacity], the opacity of that one
    element. *)
Definition dispatch (page : Page) (step : Element * Action) : Page :=
  let (target, a) := step in
  match handled page target a with
  | Some e =>
      fun el => if Element_eqb el target then target_opacity e else page el
  | None => page
  end.

(** The page after the actions, in order. *)
Definition dispatchAll (steps : list (Element * Action)) (page : Page)
  : Page :=
  fold_left dispatch steps page.

(** The opacity that a step gives the element [el], if it writes it:
    one half for a drag-over that starts on [el], one for a drag-leave or
    a drop that starts on [el] (inside the box of its handler). *)
Definition written (step : Element * Action) (el : Element) : option Q :=
  let (target, a) := step in
  if Element_eqb el target
  then match a with
       | DragOver => Some (1 # 2)%Q
       | DragLeave => Some 1%Q
       | DropOnDir _ => if inDirBox target then Some 1%Q else None
       | DropOnFile _ _ => if inFileBox target then Some 1%Q else None
       | _ => None
       end
  else None.

(** The opacity that the last step writing [el] gives it, if any does. *)
Fixpoint lastWritten (steps : list (Element * Action)) (el : Element)
  : option Q :=
  match steps with
  | [] => None
  | step :: rest =>
      match lastWritten rest el with
      | Some o => Some o
      | None => written step el
      end
  end.

(** The form after the actions, from the form [s]. *)
Definition editAll (actions : list Action) (s : State) : State :=
  fold_left edit actions s.

(** The one property of the state that an edit of a single control
    writes; Clear writes three, and the other actions none. *)
Definition fieldOf (a : Action) : option string :=
  match a with
  | ChangeName _ => Some "name"
  | ChangeDescription _ => Some "description"
  | ChangeUrl _ => Some "url"
  | AddTag _ | DeleteTag _ _ => Some "tags"
  | _ => None
  end.

(** ** Facts about a run *)

Lemma uploadFile_keeps_state (file : option File) :
  keeps_state (uploadFile file).
Proof.
  destruct file as [file | ]; cbn; [ | constructor].
  constructor; intros this. constructor.
  - intros d. unfold onCreated.
    destruct (nth_error (data d) 0); [ | constructor].
    constructor; [ | constructor].
    intros reader. unfold onload. repeat constructor.
  - intros x. unfold onCreateError. repeat constructor.
  - constructor.
Qed.

Lemma run_keeps_state (env : Env) (t : Task) :
  keeps_state t -> forall c, fst (run env t c) = c.
Proof.
  induction 1 as [ | | k _ IHk | text k _ IHk | k _ IHk
                   | settings success error k _ IHs _ IHe _ IHk
                   | file onload k _ IHo _ IHk ];
    intros c; cbn [run]; auto.
  - specialize (IHk c). destruct (run env k c); exact IHk.
  - specialize (IHk c). destruct (run env k c); exact IHk.
  - specialize (IHk c). destruct (run env k c) as [c1 tr1].
    cbn in IHk. subst c1.
    destruct (server env settings) as [d | x | ]; [ | | reflexivity].
    + specialize (IHs d c). destruct (run env (success d) c); exact IHs.
    + specialize (IHe x c). destruct (run env (error x) c); exact IHe.
  - specialize (IHk c). destruct (run env k c) as [c1 tr1].
    cbn in IHk. subst c1.
    destruct (disk env file) as [bytes | ]; [ | reflexivity].
    specialize (IHo {| result := bytes |} c).
    destruct (run env (onload {| result := bytes |}) c); exact IHo.
Qed.

Lemma attempt_none (env : Env) (c : Component) :
  attempt env None c = (c, []).
Proof. reflexivity. Qed.

Lemma attempt_events (env : Env) (file : File) (c : Component) :
  attempt env (Some file) c = (c, attemptEvents env file (props c)).
Proof.
  unfold attempt, attemptEvents, createdEvents, uploadEvents.
  cbn [uploadFile run app].
  destruct (server env (createRequest (props c) file)) as [d | x | ];
    [ | reflexivity | reflexivity].
  unfold onCreated.
  destruct (nth_error (data d) 0) as [first | ]; [ | reflexivity].
  cbn [run app].
  destruct (disk env file) as [bytes | ]; [ | reflexivity].
  unfold onload. cbn [run app].
  destruct (server env _) as [d' | x' | ]; reflexivity.
Qed.

Lemma createRequest_is_POST (p : Props) (file : File) :
  req_type (createRequest p file) = POST.
Proof. reflexivity. Qed.

Lemma contentRequest_is_PUT (uuid : string) (file : File)
      (reader : FileReader) :
  req_type (contentRequest uuid file reader) = PUT.
Proof. reflexivity. Qed.

(** ** The upload flow: what the component promises *)

(** Closes a goal about the counts of a run whose events are known. *)
Ltac settle := cbn; intuition (try lia; try congruence).

(** C1: for every filename, the query parameters of the content-upload
    request are: [finalize] is 1, [filename] is the derived default bundle
    name, with the archive extension appended when the filename is an
    archive and unchanged otherwise, and [unpack] is 1 when the filename
    is an archive and 0 otherwise. Every content-upload request of an
    attempt carries these parameters in its URL. *)
Theorem content_upload_query_params (name : string) :
  getQueryParams name = jQuery_param (queryParams name)
  /\ finalize (queryParams name) = 1
  /\ filename (queryParams name)
     = (if pathIsArchive name
        then (createDefaultBundleName name ++ getArchiveExt name)%string
        else createDefaultBundleName name)
  /\ unpack (queryParams name) = (if pathIsArchive name then 1 else 0)
  /\ forall env c,
      Forall (fun put =>
                exists bundleUuid,
                  req_url put
                  = ("/rest/bundles/" ++ bundleUuid ++ "/contents/blob/?"
                     ++ jQuery_param (queryParams name))%string)
             (sent PUT (snd (attempt env (Some {| file_name := name |}) c))).
Proof.
  repeat split.
  intros env c. rewrite attempt_events. cbn [snd].
  unfold attemptEvents, createdEvents, uploadEvents.
  cbn [sent is_method createRequest req_type].
  destruct (server env _) as [d | x | ]; cbn [sent]; [ | constructor ..].
  destruct (nth_error (data d) 0) as [first | ];
    cbn [sent]; [ | constructor].
  destruct (disk env _) as [bytes | ]; cbn [sent]; [ | constructor].
  change (is_method PUT (contentRequest (id first) {| file_name := name |}
                                        {| result := bytes |}))
    with true.
  cbv iota. constructor.
  - exists (id first). reflexivity.
  - destruct (server env _) as [d' | x' | ]; cbn; constructor.
Qed.

(** C2: in every upload attempt, a content-upload PUT request is issued
    only after the metadata-creation POST request has resolved
    successfully: whatever precedes the PUT in the run contains the
    success of a POST. *)
Theorem content_upload_follows_creation
        (env : Env) (file : option File) (c : Component)
        (before after : list Event) (put : AjaxSettings) :
  snd (attempt env file c) = before ++ Sent put :: after ->
  req_type put = PUT ->
  exists post d, req_type post = POST /\ In (Succeeded post d) before.
Proof.
  destruct file as [file | ].
  2: { rewrite attempt_none. cbn [snd]. intros H.
       destruct (app_cons_not_nil _ _ _ H). }
  rewrite attempt_events. cbn [snd]. unfold attemptEvents.
  intros Hrun Hput.
  destruct before as [ | e1 before]; cbn [app] in Hrun.
  { injection Hrun as Hs _. subst put.
    rewrite createRequest_is_POST in Hput. discriminate. }
  injection Hrun as He1 Hrun. subst e1.
  destruct (server env _) as [d | x | ].
  - destruct before as [ | e2 before]; cbn [app] in Hrun;
      [discriminate | ].
    injection Hrun as He2 _. subst e2.
    exists (createRequest (props c) file), d.
    split; [reflexivity | right; left; reflexivity].
  - do 3 (destruct before as [ | ? before]; cbn [app] in Hrun;
          try discriminate).
  - destruct before; discriminate.
Qed.

(** C3: in every upload attempt, [reloadWorksheet()] is called exactly
    when the content upload succeeds (as many times, which is at most
    once); and when the content upload fails, exactly one alert is raised
    and [reloadWorksheet()] is not called. *)
Theorem reload_exactly_on_upload_success
        (env : Env) (file : option File) (c : Component) :
  let tr := snd (attempt env file c) in
  reloads tr = List.length (succeeded PUT tr)
  /\ (List.length (succeeded PUT tr) <= 1)%nat
  /\ (failed PUT tr <> [] ->
      List.length (alerts tr) = 1%nat /\ reloads tr = 0%nat).
Proof.
  destruct file as [file | ].
  2: { settle. }
  cbv zeta. rewrite attempt_events. cbn [snd].
  unfold attemptEvents, createdEvents, uploadEvents.
  destruct (server env (createRequest _ _)) as [d | x | ];
    [ | settle ..].
  destruct (nth_error (data d) 0) as [first | ];
    [ | settle].
  destruct (disk env file) as [bytes | ];
    [ | settle].
  destruct (server env (contentRequest _ _ _)) as [d' | x' | ];
    settle.
Qed.

(** C4: in every upload attempt in which the metadata-creation call
    fails, exactly one alert is raised and no content-upload request is
    issued. *)
Theorem creation_failure_alerts_once
        (env : Env) (file : option File) (c : Component) :
  failed POST (snd (attempt env file c)) <> [] ->
  List.length (alerts (snd (attempt env file c))) = 1%nat
  /\ sent PUT (snd (attempt env file c)) = [].
Proof.
  destruct file as [file | ].
  2: { settle. }
  rewrite attempt_events. cbn [snd].
  unfold attemptEvents, createdEvents, uploadEvents.
  destruct (server env (createRequest _ _)) as [d | x | ];
    [ | settle | settle].
  destruct (nth_error (data d) 0) as [first | ];
    [ | settle].
  destruct (disk env file) as [bytes | ];
    [ | settle].
  destruct (server env (contentRequest _ _ _)) as [d' | x' | ];
    settle.
Qed.

(** C7: for a null or undefined file, [uploadFile] does nothing: the run
    has no event, so no request is issued, and the component is as it
    was. *)
Theorem upload_of_no_file (env : Env) (c : Component) :
  attempt env None c = (c, [])
  /\ sent POST (snd (attempt env None c)) = []
  /\ sent PUT (snd (attempt env None c)) = []
  /\ state (fst (attempt env None c)) = state c.
Proof. repeat split. Qed.

(** C9: the upload flow never changes the form state: after every run of
    [uploadFile], whatever the server and the reader do, [name],
    [description], [tags] and [url] are what they were. *)
Theorem upload_keeps_form_state
        (env : Env) (file : option File) (c : Component) :
  let s' := state (fst (attempt env file c)) in
  name s' = name (state c)
  /\ description s' = description (state c)
  /\ tags s' = tags (state c)
  /\ url s' = url (state c).
Proof.
  cbv zeta. unfold attempt.
  rewrite (run_keeps_state env _ (uploadFile_keeps_state file) c).
  repeat split.
Qed.

(** Every alert of an attempt is built by [createAlertText] from
    [undefined] in the place of the URL: neither [this.url] nor
    [reader.url] exists. *)
Lemma alerts_without_url (env : Env) (file : option File) (c : Component) :
  Forall (fun text =>
            exists x solution,
              text = createAlertText JS.Undefined
                                     (JS.Str (responseText x)) solution)
         (alerts (snd (attempt env file c))).
Proof.
  destruct file as [file | ]; [ | constructor].
  rewrite attempt_events. cbn [snd].
  unfold attemptEvents, createdEvents, uploadEvents.
  destruct (server env (createRequest _ _)) as [d | x | ];
    [ | cbn; repeat econstructor | constructor].
  destruct (nth_error (data d) 0) as [first | ]; [ | constructor].
  destruct (disk env file) as [bytes | ]; [ | constructor].
  destruct (server env (contentRequest _ _ _)) as [d' | x' | ];
    cbn; repeat econstructor.
Qed.

End Upload.

(** ** Array slices *)

Lemma clamp_inside (len i : Z) : 0 <= i -> JS.clamp len i = Z.min i len.
Proof.
  intros Hi. unfold JS.clamp.
  destruct (Z.ltb_spec i 0); [lia | reflexivity].
Qed.

Lemma slice_prefix {A} (arr : list A) (idx : Z) :
  0 <= idx -> JS.slice arr 0 idx = firstn (Z.to_nat idx) arr.
Proof.
  intros Hidx. unfold JS.slice.
  rewrite !clamp_inside by lia.
  rewrite (Z.min_l 0), Z.sub_0_r by lia.
  cbn [Z.to_nat skipn].
  destruct (Z.le_gt_cases idx (Z.of_nat (List.length arr))) as [Hle | Hgt].
  - rewrite Z.min_l by lia. reflexivity.
  - rewrite !firstn_all2 by lia. reflexivity.
Qed.

Lemma slice_suffix {A} (arr : list A) (start : Z) :
  0 <= start -> JS.slice_from arr start = skipn (Z.to_nat start) arr.
Proof.
  intros Hstart. unfold JS.slice_from, JS.slice.
  rewrite !clamp_inside by lia.
  rewrite firstn_all2 by (rewrite length_skipn; lia).
  destruct (Z.le_gt_cases start (Z.of_nat (List.length arr))) as [Hle | Hgt].
  - rewrite Z.min_l by lia. reflexivity.
  - rewrite !skipn_all2 by lia. reflexivity.
Qed.

(** Deleting at a position at or after 0 keeps what is before it and what
    is after it. *)
Lemma delete_tags (value : string) (idx : Z) (s : State) :
  0 <= idx ->
  tags (setState (onValueDelete value idx) s)
  = firstn (Z.to_nat idx) (tags s) ++ skipn (S (Z.to_nat idx)) (tags s).
Proof.
  intros Hidx. unfold setState, merge, onValueDelete.
  cbn [tags set_tags merge_field].
  rewrite slice_prefix, slice_suffix by lia.
  replace (Z.to_nat (idx + 1)) with (S (Z.to_nat idx)) by lia.
  reflexivity.
Qed.

(** ** The form *)

(** The form starts out in the default tuple. *)
Lemma initialState_is_default : is_default initialState.
Proof. repeat split. left. reflexivity. Qed.

(** Two states with the same four fields are the same state. *)
Lemma State_ext (s s' : State) :
  url s = url s' -> name s = name s' -> description s = description s' ->
  tags s = tags s' -> s = s'.
Proof.
  destruct s, s'. cbn. intros -> -> -> ->. reflexivity.
Qed.

(** C6, as the code has it: from every prior state, Clear resets [name],
    [description] and [tags] to their defaults ('untitled-upload', the
    empty string, no tag) and leaves [url] as it was: [defaultConfig] has
    no [url]. *)
Theorem clear_resets_config (s : State) :
  name (setState onClear s) = "untitled-upload"
  /\ description (setState onClear s) = ""
  /\ tags (setState onClear s) = []
  /\ url (setState onClear s) = url s.
Proof.
  unfold setState, onClear, merge. cbn. repeat split.
Qed.

(** C6 as stated fails: after Clear, a form whose clone URL was filled in
    is not the default tuple. *)
Lemma clear_keeps_url_counterexample :
  ~ is_default (setState onClear (state Sample.component)).
Proof.
  intros (_ & _ & _ & [Hurl | Hurl]); discriminate Hurl.
Qed.

(** C8: for every tag list and every tag, adding the tag (which puts it at
    the index that is the old length) and then deleting at that index gives
    back exactly the tags from before the add, in their order; the rest of
    the form is untouched. *)
Theorem add_then_delete_tag (s : State) (value : string) :
  let added := setState (onValueAdd value) s in
  let idx := Z.of_nat (List.length (tags s)) in
  nth_error (tags added) (Z.to_nat idx) = Some value
  /\ tags (setState (onValueDelete value idx) added) = tags s
  /\ setState (onValueDelete value idx) added = s.
Proof.
  cbv zeta.
  assert (Htags : tags (setState (onValueAdd value) s) = tags s ++ [value])
    by reflexivity.
  assert (Hdel : tags (setState (onValueDelete value
                                   (Z.of_nat (List.length (tags s))))
                                (setState (onValueAdd value) s)) = tags s).
  { rewrite delete_tags by lia. rewrite Htags, Nat2Z.id.
    rewrite firstn_app, firstn_all, Nat.sub_diag. cbn [firstn].
    rewrite skipn_all2 by (rewrite length_app; cbn; lia).
    rewrite !app_nil_r. reflexivity. }
  split; [ | split].
  - rewrite Htags, Nat2Z.id, nth_error_app2 by lia.
    rewrite Nat.sub_diag. reflexivity.
  - exact Hdel.
  - apply State_ext; [reflexivity .. | exact Hdel].
Qed.

Lemma skipn_uncons {A} (l : list A) (n : nat) :
  (n < List.length l)%nat ->
  exists x, skipn n l = x :: skipn (S n) l.
Proof.
  revert n. induction l as [ | a l IH]; intros n Hn; cbn in Hn; [lia | ].
  destruct n as [ | n].
  - exists a. reflexivity.
  - destruct (IH n) as [x Hx]; [lia | ]. exists x. exact Hx.
Qed.

(** C10: tag deletion is defined at every index. For every tag list,
    the empty one included, an index at or past the length leaves the
    tags as they are, and an index inside the list removes exactly the
    element at that index: the tags before it and the tags after it stay,
    in order. *)
Theorem delete_tag_total (s : State) (value : string) (idx : Z) :
  (Z.of_nat (List.length (tags s)) <= idx ->
   tags (setState (onValueDelete value idx) s) = tags s)
  /\ (0 <= idx < Z.of_nat (List.length (tags s)) ->
      exists before x after,
        tags s = before ++ x :: after
        /\ Z.of_nat (List.length before) = idx
        /\ tags (setState (onValueDelete value idx) s) = before ++ after).
Proof.
  split.
  - intros Hfar. rewrite delete_tags by lia.
    rewrite firstn_all2, skipn_all2 by lia.
    apply app_nil_r.
  - intros Hnear. rewrite delete_tags by lia.
    destruct (skipn_uncons (tags s) (Z.to_nat idx)) as [x Hx]; [lia | ].
    exists (firstn (Z.to_nat idx) (tags s)), x,
           (skipn (S (Z.to_nat idx)) (tags s)).
    split; [ | split].
    + rewrite <- Hx. symmetry. apply firstn_skipn.
    + rewrite length_firstn. lia.
    + reflexivity.
Qed.

(** C5 fails on the code. When the metadata creation is refused, and when
    the content upload is refused, the one alert is built from [undefined]
    where the URL of the failing request should be, whatever the helpers
    are; with a [createAlertText] that writes out its arguments the text
    reads "undefined" and has nothing of the URL. *)
Theorem alert_has_no_request_url :
  (forall imports : Imports,
      alerts (snd (attempt Sample.create_fails (Some Sample.notes_txt)
                           Sample.component))
      = [createAlertText JS.Undefined (JS.Str "403 Forbidden") JS.Undefined]
      /\ alerts (snd (attempt Sample.upload_fails (Some Sample.notes_txt)
                              Sample.component))
         = [createAlertText JS.Undefined (JS.Str "403 Forbidden")
                            (JS.Str "refresh and try again.")])
  /\ alerts (snd (attempt (imports := Sample.imports) Sample.create_fails
                          (Some Sample.notes_txt) Sample.component))
     = ["request failed: undefined server response: 403 Forbidden"]
  /\ alerts (snd (attempt (imports := Sample.imports) Sample.upload_fails
                          (Some Sample.notes_txt) Sample.component))
     = ["request failed: undefined server response: 403 Forbidden recommendation: refresh and try again."].
Proof.
  split; [intros imports; split; reflexivity | split; reflexivity].
Qed.

(** ** The theorems at concrete inputs *)

(** The C2 theorem on the upload of [data.zip] when both requests
    succeed: the PUT is the fifth event, after the success of the POST. *)
Lemma content_upload_follows_creation_witness :
  let tr := snd (attempt (imports := Sample.imports) Sample.all_well
                         (Some Sample.data_zip) Sample.component) in
  let put := contentRequest (imports := Sample.imports) "0x9c41"
                            Sample.data_zip {| result := Sample.bytes |} in
  tr = firstn 4 tr ++ Sent put :: skipn 5 tr
  /\ req_type put = PUT
  /\ exists post d, req_type post = POST /\ In (Succeeded post d) (firstn 4 tr).
Proof.
  cbv zeta. split; [reflexivity | split; [reflexivity | ]].
  apply (content_upload_follows_creation
           (imports := Sample.imports) Sample.all_well
           (Some Sample.data_zip) Sample.component
           (firstn 4 (snd (attempt (imports := Sample.imports) Sample.all_well
                                   (Some Sample.data_zip) Sample.component)))
           (skipn 5 (snd (attempt (imports := Sample.imports) Sample.all_well
                                  (Some Sample.data_zip) Sample.component)))
           (contentRequest (imports := Sample.imports) "0x9c41"
                           Sample.data_zip {| result := Sample.bytes |}));
    reflexivity.
Defined.

(** The C3 theorem on the upload of [data.zip] when the content upload is
    refused: one alert, no reload. *)
Lemma reload_exactly_on_upload_success_witness :
  let tr := snd (attempt (imports := Sample.imports) Sample.upload_fails
                         (Some Sample.data_zip) Sample.component) in
  failed PUT tr <> []
  /\ List.length (alerts tr) = 1%nat /\ reloads tr = 0%nat.
Proof.
  cbv zeta. split; [discriminate | ].
  apply (reload_exactly_on_upload_success
           (imports := Sample.imports) Sample.upload_fails
           (Some Sample.data_zip) Sample.component).
  discriminate.
Defined.

(** The C4 theorem on the upload of [notes.txt] when the metadata creation
    is refused: one alert, no PUT. *)
Lemma creation_failure_alerts_once_witness :
  let tr := snd (attempt (imports := Sample.imports) Sample.create_fails
                         (Some Sample.notes_txt) Sample.component) in
  failed POST tr <> []
  /\ List.length (alerts tr) = 1%nat /\ sent PUT tr = [].
Proof.
  cbv zeta. split; [discriminate | ].
  apply (creation_failure_alerts_once
           (imports := Sample.imports) Sample.create_fails
           (Some Sample.notes_txt) Sample.component).
  discriminate.
Defined.

(** The C10 theorem on the empty tag list of a new component, where
    index 0 is already past the end, and on the tags [nlp; baseline]:
    index 2 is past the end, index 0 removes [nlp]. *)
Lemma delete_tag_total_witness :
  let s := state Sample.component in
  (Z.of_nat (List.length (tags initialState)) <= 0
   /\ tags (setState (onValueDelete "nlp" 0) initialState)
      = tags initialState)
  /\ (Z.of_nat (List.length (tags s)) <= 2
      /\ tags (setState (onValueDelete "" 2) s) = tags s)
  /\ (0 <= 0 < Z.of_nat (List.length (tags s))
      /\ exists before x after,
          tags s = before ++ x :: after
          /\ Z.of_nat (List.length before) = 0
          /\ tags (setState (onValueDelete "nlp" 0) s) = before ++ after).
Proof.
  cbv zeta. split; [ | split].
  - split; [cbn; lia | ].
    apply (proj1 (delete_tag_total initialState "nlp" 0)). cbn; lia.
  - split; [cbn; lia | ].
    apply (proj1 (delete_tag_total (state Sample.component) "" 2)).
    cbn; lia.
  - split; [cbn; lia | ].
    apply (proj2 (delete_tag_total (state Sample.component) "nlp" 0)).
    cbn; lia.
Defined.

(** ** Examples *)

(** An archive keeps its extension and is unpacked. *)
Example data_zip_query :
  getQueryParams (imports := Sample.imports) "data.zip"
  = "finalize=1&filename=data.zip&unpack=1".
Proof. reflexivity. Qed.

(** Any other file keeps its name and is not unpacked. *)
Example notes_txt_query :
  getQueryParams (imports := Sample.imports) "notes.txt"
  = "finalize=1&filename=notes.txt&unpack=0".
Proof. reflexivity. Qed.

(** A successful upload of [data.zip]: POST, read, PUT, reload. *)
Example upload_data_zip :
  let put := contentRequest (imports := Sample.imports) "0x9c41"
                            Sample.data_zip {| result := Sample.bytes |} in
  let post := createRequest (imports := Sample.imports)
                            (props Sample.component) Sample.data_zip in
  attempt (imports := Sample.imports) Sample.all_well (Some Sample.data_zip)
          Sample.component
  = (Sample.component,
     [Sent post; Succeeded post Sample.created;
      ReadStarted Sample.data_zip; Loaded Sample.data_zip Sample.bytes;
      Sent put; Succeeded put Sample.created; Reloaded])
  /\ req_url post = "/rest/bundles?worksheet=0x5f2a&after_sort_key=40"
  /\ req_url put
     = "/rest/bundles/0x9c41/contents/blob/?finalize=1&filename=data.zip&unpack=1".
Proof. repeat split. Qed.

(** A reply whose [data] array is empty ends the success callback with an
    exception: no read, no PUT, no alert. *)
Example upload_with_empty_reply :
  snd (attempt (imports := Sample.imports)
               {| server := fun _ => Success {| data := [] |};
                  disk := fun _ => Some Sample.bytes |}
               (Some Sample.notes_txt) Sample.component)
  = let post := createRequest (imports := Sample.imports)
                              (props Sample.component) Sample.notes_txt in
    [Sent post; Succeeded post {| data := [] |}; Uncaught].
Proof. reflexivity. Qed.

(** A negative index counts from the end in [slice(0, idx)], and
    [slice(idx+1)] is then the whole list. *)
Example delete_at_minus_one :
  tags (setState (onValueDelete "baseline" (-1)) (state Sample.component))
  = ["nlp"; "nlp"; "baseline"].
Proof. reflexivity. Qed.

(** ** More on one upload attempt *)

Section Attempt.

Context {imports : Imports}.

(** The form plays no part in an upload: with the same props, the same
    world and the same file, the requests, the alerts and everything
    else of the run are the same whatever [name], [description], [tags]
    and [url] hold. *)
Theorem upload_ignores_form
        (env : Env) (file : option File) (p : Props) (s s' : State) :
  snd (attempt env file {| props := p; state := s |})
  = snd (attempt env file {| props := p; state := s' |}).
Proof.
  destruct file as [file | ].
  - rewrite !attempt_events. reflexivity.
  - reflexivity.
Qed.

(** An attempt on a file issues exactly one metadata-creation request,
    built from the props and the file name, and at most one
    content-upload request: nothing is sent twice. *)
Theorem one_request_each (env : Env) (file : File) (c : Component) :
  let tr := snd (attempt env (Some file) c) in
  sent POST tr = [createRequest (props c) file]
  /\ (List.length (sent PUT tr) <= 1)%nat.
Proof.
  cbv zeta. rewrite attempt_events. cbn [snd].
  unfold attemptEvents, createdEvents, uploadEvents.
  destruct (server env (createRequest _ _)) as [d | x | ];
    [ | cbn; auto ..].
  destruct (nth_error (data d) 0) as [first | ]; [ | cbn; auto].
  destruct (disk env file) as [bytes | ]; [ | cbn; auto].
  destruct (server env (contentRequest _ _ _)) as [d' | x' | ]; cbn; auto.
Qed.

(** The alerts of an attempt are the failed requests, one alert each, and
    an attempt never both alerts and reloads: it ends with one alert, or
    one reload, or neither. *)
Theorem alerts_are_failures
        (env : Env) (file : option File) (c : Component) :
  let tr := snd (attempt env file c) in
  List.length (alerts tr)
  = (List.length (failed POST tr) + List.length (failed PUT tr))%nat
  /\ (List.length (alerts tr) + reloads tr <= 1)%nat.
Proof.
  destruct file as [file | ]; [ | cbn; auto].
  cbv zeta. rewrite attempt_events. cbn [snd].
  unfold attemptEvents, createdEvents, uploadEvents.
  destruct (server env (createRequest _ _)) as [d | x | ];
    [ | cbn; auto ..].
  destruct (nth_error (data d) 0) as [first | ]; [ | cbn; auto].
  destruct (disk env file) as [bytes | ]; [ | cbn; auto].
  destruct (server env (contentRequest _ _ _)) as [d' | x' | ]; cbn; auto.
Qed.

(** When the server accepts the metadata but its reply has an empty
    [data] array, [data.data[0].id] throws in the success callback: the
    run ends there, with no read, no content upload, no alert and no
    reload. *)
Theorem empty_reply_ends_silently
        (env : Env) (file : File) (c : Component) (d : Response) :
  server env (createRequest (props c) file) = Success d ->
  data d = [] ->
  snd (attempt env (Some file) c)
  = [Sent (createRequest (props c) file);
     Succeeded (createRequest (props c) file) d;
     Uncaught].
Proof.
  intros Hreply Hdata. rewrite attempt_events. cbn [snd].
  unfold attemptEvents, createdEvents. rewrite Hreply, Hdata.
  reflexivity.
Qed.

(** When the metadata is created but the file cannot be read, [onload]
    never fires: no content upload is sent and the user sees neither an
    alert nor a reload. *)
Theorem read_failure_ends_silently
        (env : Env) (file : File) (c : Component) (d : Response) :
  server env (createRequest (props c) file) = Success d ->
  disk env file = None ->
  let tr := snd (attempt env (Some file) c) in
  sent PUT tr = [] /\ alerts tr = [] /\ reloads tr = 0%nat.
Proof.
  intros Hreply Hdisk. cbv zeta. rewrite attempt_events. cbn [snd].
  unfold attemptEvents, createdEvents. rewrite Hreply, Hdisk.
  destruct (nth_error (data d) 0); cbn; auto.
Qed.

(** When the metadata is created and the file is read, the one
    content-upload request goes to the bundle named by the first element
    of the reply (the others are not looked at), carries exactly the bytes
    that were read, as [application/octet-stream], and has the query of
    the file name. *)
Theorem content_upload_payload
        (env : Env) (file : File) (c : Component)
        (first : Resource) (others : list Resource)
        (bytes : list Byte.byte) :
  server env (createRequest (props c) file)
  = Success {| data := first :: others |} ->
  disk env file = Some bytes ->
  sent PUT (snd (attempt env (Some file) c))
  = [{| req_url := ("/rest/bundles/" ++ id first ++ "/contents/blob/?"
                    ++ getQueryParams (file_name file))%string;
        req_type := PUT;
        req_contentType := "application/octet-stream";
        req_data := Blob bytes |}].
Proof.
  intros Hreply Hdisk. rewrite attempt_events. cbn [snd].
  unfold attemptEvents, createdEvents, uploadEvents.
  rewrite Hreply, Hdisk. cbn [data nth_error].
  destruct (server env (contentRequest _ _ _)) as [d' | x' | ];
    reflexivity.
Qed.

(** Lines a run up with [before ++ e :: after]: leaves the cases where
    [e] can be an event of the run. *)
Ltac align H before :=
  let e := fresh "e" in
  let rest := fresh "before" in
  destruct before as [ | e rest]; cbn [app] in H;
  [ try discriminate H
  | first [ discriminate H | align H rest ] ].

(** Nothing follows a failure but its alert: after the [error] callback
    of either request the run has one alert and then stops, with no
    retry and no request that would remove the bundle just created. *)
Theorem failure_ends_the_attempt
        (env : Env) (file : option File) (c : Component)
        (before after : list Event) (s : AjaxSettings) (x : XHR) :
  snd (attempt env file c) = before ++ Failed s x :: after ->
  exists text, after = [Alerted text].
Proof.
  destruct file as [file | ].
  2: { rewrite attempt_none. cbn [snd]. intros H.
       destruct (app_cons_not_nil _ _ _ H). }
  rewrite attempt_events. cbn [snd].
  unfold attemptEvents, createdEvents, uploadEvents, createAlert, uploadAlert.
  intros Hrun.
  destruct (server env (createRequest _ _)) as [d | x1 | ];
    [destruct (nth_error (data d) 0) as [first | ];
     [destruct (disk env file) as [bytes | ];
      [destruct (server env (contentRequest _ _ _)) as [d' | x' | ] | ] | ]
    | | ];
    align Hrun before;
    inversion Hrun; subst; eexists; reflexivity.
Qed.

End Attempt.

(** ** Sessions: any sequence of actions *)

Lemma alerts_app (tr1 tr2 : list Event) :
  alerts (tr1 ++ tr2) = alerts tr1 ++ alerts tr2.
Proof.
  induction tr1 as [ | e tr1 IH]; [reflexivity | ].
  destruct e; cbn; rewrite IH; reflexivity.
Qed.

Lemma reloads_app (tr1 tr2 : list Event) :
  reloads (tr1 ++ tr2) = (reloads tr1 + reloads tr2)%nat.
Proof.
  induction tr1 as [ | e tr1 IH]; [reflexivity | ].
  destruct e; cbn; rewrite IH; reflexivity.
Qed.

Lemma sent_app (m : Method) (tr1 tr2 : list Event) :
  sent m (tr1 ++ tr2) = sent m tr1 ++ sent m tr2.
Proof.
  induction tr1 as [ | e tr1 IH]; [reflexivity | ].
  destruct e; cbn; rewrite IH; try reflexivity.
  destruct (is_method m s); reflexivity.
Qed.

Lemma succeeded_app (m : Method) (tr1 tr2 : list Event) :
  succeeded m (tr1 ++ tr2) = succeeded m tr1 ++ succeeded m tr2.
Proof.
  induction tr1 as [ | e tr1 IH]; [reflexivity | ].
  destruct e; cbn; rewrite IH; try reflexivity.
  destruct (is_method m s); reflexivity.
Qed.

Lemma failed_app (m : Method) (tr1 tr2 : list Event) :
  failed m (tr1 ++ tr2) = failed m tr1 ++ failed m tr2.
Proof.
  induction tr1 as [ | e tr1 IH]; [reflexivity | ].
  destruct e; cbn; rewrite IH; try reflexivity.
  destruct (is_method m s); reflexivity.
Qed.

Section Session.

Context {imports : Imports}.

(** What one attempt adds to the counts of a session. *)
Lemma attempt_census (env : Env) (file : option File) (c : Component) :
  let tr := snd (attempt env file c) in
  List.length (sent POST tr)
  = match file with Some _ => 1%nat | None => 0%nat end
  /\ (List.length (succeeded POST tr) <= List.length (sent POST tr))%nat
  /\ (List.length (sent PUT tr) <= List.length (succeeded POST tr))%nat
  /\ reloads tr = List.length (succeeded PUT tr)
  /\ List.length (alerts tr)
     = (List.length (failed POST tr) + List.length (failed PUT tr))%nat.
Proof.
  destruct file as [file | ]; [ | cbn; auto 6].
  cbv zeta. rewrite attempt_events. cbn [snd].
  unfold attemptEvents, createdEvents, uploadEvents.
  destruct (server env (createRequest _ _)) as [d | x | ];
    [ | cbn; auto 6 ..].
  destruct (nth_error (data d) 0) as [first | ]; [ | cbn; auto 6].
  destruct (disk env file) as [bytes | ]; [ | cbn; auto 6].
  destruct (server env (contentRequest _ _ _)) as [d' | x' | ];
    cbn; auto 6.
Qed.

(** What each handler does when run: an edit changes the form and is
    silent, Confirm alerts, a drop on the file box is an upload attempt on
    the first selected file, and the other drag events do nothing that
    the run records. *)
Lemma run_handler (env : Env) (a : Action) (c : Component) :
  run env (handler a) c
  = match a with
    | DropOnFile selected _ => attempt env (nth_error selected 0) c
    | ClickConfirm => (c, [Alerted "New Upload Confirmed"])
    | _ => ({| props := props c; state := edit (state c) a |}, [])
    end.
Proof.
  destruct c as [p s]. destruct a; reflexivity.
Qed.

Lemma handler_state (env : Env) (a : Action) (c : Component) :
  fst (run env (handler a) c)
  = {| props := props c; state := edit (state c) a |}.
Proof.
  rewrite run_handler. destruct c as [p s].
  destruct a; try reflexivity.
  unfold attempt. rewrite run_keeps_state by apply uploadFile_keeps_state.
  reflexivity.
Qed.

Lemma handler_census (env : Env) (a : Action) (c : Component) :
  let tr := snd (run env (handler a) c) in
  List.length (sent POST tr) = (if selects a then 1 else 0)%nat
  /\ (List.length (succeeded POST tr) <= List.length (sent POST tr))%nat
  /\ (List.length (sent PUT tr) <= List.length (succeeded POST tr))%nat
  /\ reloads tr = List.length (succeeded PUT tr)
  /\ List.length (alerts tr)
     = ((if isConfirm a then 1 else 0)
        + List.length (failed POST tr) + List.length (failed PUT tr))%nat.
Proof.
  cbv zeta. rewrite run_handler.
  destruct a; try (cbn; auto 6; fail).
  destruct (attempt_census env (nth_error selected 0) c)
    as (Hposts & Hok & Hputs & Hreloads & Halerts).
  cbn [selects isConfirm]. repeat split; auto.
  rewrite Hposts. destruct selected; reflexivity.
Qed.

Lemma session_step (env : Env) (a : Action) (rest : list (Env * Action))
      (c : Component) :
  session ((env, a) :: rest) c
  = (fst (session rest (fst (run env (handler a) c))),
     snd (run env (handler a) c)
     ++ snd (session rest (fst (run env (handler a) c)))).
Proof.
  cbn [session]. destruct (run env (handler a) c) as [c1 tr1]. cbn [fst snd].
  destruct (session rest c1); reflexivity.
Qed.

Lemma session_census (steps : list (Env * Action)) (c : Component) :
  let tr := snd (session steps c) in
  List.length (sent POST tr)
  = List.length (filter selects (map snd steps))
  /\ (List.length (succeeded POST tr) <= List.length (sent POST tr))%nat
  /\ (List.length (sent PUT tr) <= List.length (succeeded POST tr))%nat
  /\ reloads tr = List.length (succeeded PUT tr)
  /\ List.length (alerts tr)
     = (List.length (filter isConfirm (map snd steps))
        + List.length (failed POST tr) + List.length (failed PUT tr))%nat.
Proof.
  cbv zeta. revert c.
  induction steps as [ | [env a] rest IH]; intros c; [cbn; auto 6 | ].
  rewrite session_step. cbn [snd map filter].
  destruct (handler_census env a c) as (H1 & H2 & H3 & H4 & H5).
  destruct (IH (fst (run env (handler a) c))) as (I1 & I2 & I3 & I4 & I5).
  rewrite !sent_app, !succeeded_app, !failed_app, alerts_app, reloads_app.
  rewrite !length_app.
  repeat split.
  - rewrite H1, I1. destruct (selects a); reflexivity.
  - lia.
  - lia.
  - lia.
  - rewrite H5, I5. destruct (isConfirm a); cbn [List.length]; lia.
Qed.

(** Uploads, drags and Confirm never disturb the form, however they are
    mixed with edits: after any session the form is what the edits alone
    make of it, and the props are untouched. *)
Theorem session_form (steps : list (Env * Action)) (c : Component) :
  state (fst (session steps c)) = editAll (map snd steps) (state c)
  /\ props (fst (session steps c)) = props c.
Proof.
  revert c. induction steps as [ | [env a] rest IH]; intros c;
    [split; reflexivity | ].
  rewrite session_step. cbn [fst map].
  destruct (IH (fst (run env (handler a) c))) as [Hstate Hprops].
  rewrite Hstate, Hprops, handler_state. split; reflexivity.
Qed.

(** Only a drop on the file box that finds a file selected reaches the
    server: a session sends exactly one metadata-creation request for each
    such drop, and none for a drop on the directory box, a drop with no
    file selected, or any other action. *)
Theorem session_requests (steps : list (Env * Action)) (c : Component) :
  List.length (sent POST (snd (session steps c)))
  = List.length (filter selects (map snd steps))
  /\ (List.length (sent PUT (snd (session steps c)))
      <= List.length (filter selects (map snd steps)))%nat.
Proof.
  destruct (session_census steps c) as (H1 & H2 & H3 & _).
  split; [exact H1 | lia].
Qed.

(** Over a whole session, the worksheet is reloaded once for every
    content upload that succeeded, and content uploads are sent only for
    metadata creations that succeeded. *)
Theorem session_reloads (steps : list (Env * Action)) (c : Component) :
  reloads (snd (session steps c))
  = List.length (succeeded PUT (snd (session steps c)))
  /\ (List.length (sent PUT (snd (session steps c)))
      <= List.length (succeeded POST (snd (session steps c))))%nat.
Proof.
  destruct (session_census steps c) as (_ & _ & H3 & H4 & _).
  split; assumption.
Qed.

(** Over a whole session, the alerts are one for each click on Confirm
    and one for each request that failed, and no other. *)
Theorem session_alerts (steps : list (Env * Action)) (c : Component) :
  List.length (alerts (snd (session steps c)))
  = (List.length (filter isConfirm (map snd steps))
     + List.length (failed POST (snd (session steps c)))
     + List.length (failed PUT (snd (session steps c))))%nat.
Proof.
  destruct (session_census steps c) as (_ & _ & _ & _ & H5). exact H5.
Qed.

End Session.

(** ** More on the form *)

Lemma editAll_step (a : Action) (rest : list Action) (s : State) :
  editAll (a :: rest) s = editAll rest (edit s a).
Proof. reflexivity. Qed.

Lemma url_edit (s : State) (a : Action) :
  url (edit s a)
  = match a with
    | ChangeUrl value => Some value
    | _ => url s
    end.
Proof. destruct a; reflexivity. Qed.

(** The clone URL after any actions is the last value typed into its
    field, and what it was before when none was typed: no action, Clear
    included, removes it or empties it. *)
Theorem url_is_last_typed (actions : list Action) (s : State) :
  url (editAll actions s)
  = match lastUrl actions with
    | Some u => Some u
    | None => url s
    end.
Proof.
  revert s. induction actions as [ | a rest IH]; intros s; [reflexivity | ].
  rewrite editAll_step, IH, url_edit. cbn [lastUrl].
  destruct (lastUrl rest); [reflexivity | ].
  destruct a; reflexivity.
Qed.

Lemma tags_add (value : string) (s : State) :
  tags (setState (onValueAdd value) s) = tags s ++ [value].
Proof. reflexivity. Qed.

(** Adding tags one after another appends them in the order given: the
    tags that were there stay in front, in their order, and none of the
    new ones is dropped or merged, repeats included. *)
Theorem add_tags_in_order (values : list string) (s : State) :
  tags (editAll (map AddTag values) s) = tags s ++ values.
Proof.
  revert s. induction values as [ | v values IH]; intros s.
  - cbn. symmetry. apply app_nil_r.
  - cbn [map]. rewrite editAll_step, IH.
    unfold edit. cbn [updaterOf]. rewrite tags_add, <- app_assoc.
    reflexivity.
Qed.

(** The chip input keeps duplicates: adding a tag raises the number of
    its occurrences by one, whether or not it was there already, and
    leaves the occurrences of every other tag as they were. *)
Theorem add_tag_counts (s : State) (value other : string) :
  count_occ string_dec (tags (setState (onValueAdd value) s)) value
  = S (count_occ string_dec (tags s) value)
  /\ (other <> value ->
      count_occ string_dec (tags (setState (onValueAdd value) s)) other
      = count_occ string_dec (tags s) other).
Proof.
  rewrite tags_add, !count_occ_app. cbn [count_occ]. split.
  - destruct (string_dec value value) as [_ | Hne]; [lia | congruence].
  - intros Hother.
    destruct (string_dec value other) as [Heq | _]; [congruence | lia].
Qed.

(** Deleting a tag that is there and adding a tag commute: with an index
    inside the list, delete-then-add and add-then-delete give the same
    tags. *)
Theorem delete_add_commute (s : State) (value deleted : string) (idx : Z) :
  0 <= idx < Z.of_nat (List.length (tags s)) ->
  tags (setState (onValueDelete deleted idx) (setState (onValueAdd value) s))
  = tags (setState (onValueAdd value) (setState (onValueDelete deleted idx) s)).
Proof.
  intros Hidx. rewrite tags_add, !delete_tags by lia. rewrite tags_add.
  rewrite firstn_app, skipn_app.
  replace (Z.to_nat idx - List.length (tags s))%nat with 0%nat by lia.
  replace (S (Z.to_nat idx) - List.length (tags s))%nat with 0%nat by lia.
  cbn [firstn skipn]. rewrite app_nil_r, app_assoc. reflexivity.
Qed.

Lemma slice_before_end {A} (arr : list A) (idx : Z) :
  idx < 0 ->
  JS.slice arr 0 idx
  = firstn (Z.to_nat (Z.of_nat (List.length arr) + idx)) arr.
Proof.
  intros Hidx. unfold JS.slice.
  rewrite (clamp_inside _ 0) by lia.
  rewrite (Z.min_l 0), Z.sub_0_r by lia. cbn [Z.to_nat skipn].
  unfold JS.clamp. destruct (Z.ltb_spec idx 0); [ | lia].
  destruct (Z.max_spec (Z.of_nat (List.length arr) + idx) 0)
    as [[Hlt ->] | [_ ->]]; [ | reflexivity].
  replace (Z.to_nat (Z.of_nat (List.length arr) + idx)) with 0%nat by lia.
  reflexivity.
Qed.

Lemma slice_from_end {A} (arr : list A) (start : Z) :
  start < 0 ->
  JS.slice_from arr start
  = skipn (Z.to_nat (Z.of_nat (List.length arr) + start)) arr.
Proof.
  intros Hstart. unfold JS.slice_from, JS.slice.
  rewrite (clamp_inside _ (Z.of_nat _)) by lia. rewrite Z.min_id.
  unfold JS.clamp. destruct (Z.ltb_spec start 0); [ | lia].
  rewrite firstn_all2 by (rewrite length_skipn; lia).
  destruct (Z.max_spec (Z.of_nat (List.length arr) + start) 0)
    as [[Hlt ->] | [_ ->]]; [ | reflexivity].
  replace (Z.to_nat (Z.of_nat (List.length arr) + start)) with 0%nat by lia.
  reflexivity.
Qed.

(** Deleting at index -1 deletes nothing: [slice(0, -1)] is the list
    without its last element and [slice(0)] is the whole list, so the
    tags become all but the last followed by all of them. *)
Theorem delete_at_minus_one_doubles (s : State) (value : string) :
  tags (setState (onValueDelete value (-1)) s)
  = removelast (tags s) ++ tags s.
Proof.
  unfold setState, merge, onValueDelete. cbn [tags set_tags merge_field].
  rewrite slice_before_end by lia.
  change (-1 + 1) with 0. rewrite slice_suffix by lia. cbn [Z.to_nat skipn].
  f_equal. rewrite removelast_firstn_len. f_equal. lia.
Qed.

(** An index from [-length] to -2 counts from the end, as in [slice]:
    deleting there removes exactly the element at [length + idx]. *)
Theorem delete_counts_from_end (s : State) (value : string) (idx : Z) :
  - Z.of_nat (List.length (tags s)) <= idx <= -2 ->
  exists before x after,
    tags s = before ++ x :: after
    /\ Z.of_nat (List.length before) = Z.of_nat (List.length (tags s)) + idx
    /\ tags (setState (onValueDelete value idx) s) = before ++ after.
Proof.
  intros Hidx.
  set (n := Z.to_nat (Z.of_nat (List.length (tags s)) + idx)).
  destruct (skipn_uncons (tags s) n) as [x Hx]; [lia | ].
  exists (firstn n (tags s)), x, (skipn (S n) (tags s)).
  split; [ | split].
  - rewrite <- Hx. symmetry. apply firstn_skipn.
  - rewrite length_firstn. lia.
  - unfold setState, merge, onValueDelete. cbn [tags set_tags merge_field].
    rewrite slice_before_end, slice_from_end by lia.
    replace (Z.to_nat (Z.of_nat (List.length (tags s)) + (idx + 1)))
      with (S n) by lia.
    reflexivity.
Qed.

(** An index below [-length] is out of range like one at or past the
    length: deleting there leaves the tags as they are. *)
Theorem delete_below_range (s : State) (value : string) (idx : Z) :
  idx < - Z.of_nat (List.length (tags s)) ->
  tags (setState (onValueDelete value idx) s) = tags s.
Proof.
  intros Hidx.
  unfold setState, merge, onValueDelete. cbn [tags set_tags merge_field].
  destruct (Z.eq_dec idx (-1)) as [-> | Hne].
  { destruct (tags s); [reflexivity | cbn [List.length] in Hidx; lia]. }
  rewrite slice_before_end, slice_from_end by lia.
  replace (Z.to_nat (Z.of_nat (List.length (tags s)) + idx)) with 0%nat by lia.
  replace (Z.to_nat (Z.of_nat (List.length (tags s)) + (idx + 1)))
    with 0%nat by lia.
  reflexivity.
Qed.

(** Edits of different controls do not interfere: two edits that write
    different properties of the state give the same form in either
    order. *)
Theorem edits_of_different_fields_commute
        (s : State) (a b : Action) (f g : string) :
  fieldOf a = Some f -> fieldOf b = Some g -> f <> g ->
  edit (edit s a) b = edit (edit s b) a.
Proof.
  intros Ha Hb Hfg.
  destruct a; try discriminate Ha; destruct b; try discriminate Hb;
    cbn in Ha, Hb; try congruence;
    apply State_ext; reflexivity.
Qed.

(** ** Drag feedback *)

Section Drag.

Context {imports : Imports}.

Lemma Element_eqb_eq (a b : Element) : Element_eqb a b = true <-> a = b.
Proof.
  split.
  - destruct a, b; cbn; intros H; try reflexivity; discriminate H.
  - intros <-. destruct a; reflexivity.
Qed.

Lemma dispatch_written (page : Page) (step : Element * Action)
      (el : Element) :
  dispatch page step el
  = match written step el with
    | Some o => o
    | None => page el
    end.
Proof.
  destruct step as [target a]. unfold dispatch, written, handled.
  destruct a; try (destruct (Element_eqb el target); reflexivity).
  - destruct (inDirBox target), (Element_eqb el target); reflexivity.
  - destruct (inFileBox target), (Element_eqb el target); reflexivity.
Qed.

(** The drag feedback is per element: each handler writes the opacity of
    the element its event started on, so after any actions the opacity of
    an element is what the last drag event that started on that very
    element gave it (one half for a drag-over, one for a drag-leave or a
    drop), and is what it was when no drag event started on it. A
    drag-leave or a drop that starts on the box does not restore a label
    that a drag-over dimmed, and the two boxes do not affect each
    other. *)
Theorem opacity_is_last_written
        (steps : list (Element * Action)) (page : Page) (el : Element) :
  dispatchAll steps page el
  = match lastWritten steps el with
    | Some o => o
    | None => page el
    end.
Proof.
  unfold dispatchAll. revert page.
  induction steps as [ | step rest IH]; intros page; [reflexivity | ].
  cbn [fold_left lastWritten]. rewrite IH.
  destruct (lastWritten rest el); [reflexivity | ].
  apply dispatch_written.
Qed.

End Drag.

(** A drag-over that starts on the label of the file box, then a
    drag-leave that starts on the box itself: the box is opaque, the
    label stays dimmed, and the directory box is as it was. *)
Example dimmed_label_stays_dimmed :
  let page := dispatchAll (imports := Sample.imports)
                          [(FileLabel, DragOver); (FileBox, DragLeave)]
                          (fun _ => 1%Q) in
  page FileLabel = (1 # 2)%Q /\ page FileBox = 1%Q /\ page DirBox = 1%Q.
Proof. repeat split. Qed.

(** ** The further theorems at concrete inputs *)

(** An upload of [notes.txt] answered with an empty [data] array. *)
Lemma empty_reply_ends_silently_witness :
  let env := {| server := fun _ => Success {| data := [] |};
                disk := fun _ => Some Sample.bytes |} in
  let post := createRequest (imports := Sample.imports)
                            (props Sample.component) Sample.notes_txt in
  server env post = Success {| data := [] |}
  /\ data {| data := [] |} = []
  /\ snd (attempt (imports := Sample.imports) env (Some Sample.notes_txt)
                  Sample.component)
     = [Sent post; Succeeded post {| data := [] |}; Uncaught].
Proof.
  cbv zeta. split; [reflexivity | split; [reflexivity | ]].
  apply (empty_reply_ends_silently (imports := Sample.imports));
    reflexivity.
Defined.

(** An upload of [data.zip] whose metadata is created but whose bytes
    cannot be read. *)
Lemma read_failure_ends_silently_witness :
  let env := {| server := fun _ => Success Sample.created;
                disk := fun _ => None |} in
  let tr := snd (attempt (imports := Sample.imports) env
                         (Some Sample.data_zip) Sample.component) in
  server env (createRequest (imports := Sample.imports)
                            (props Sample.component) Sample.data_zip)
  = Success Sample.created
  /\ disk env Sample.data_zip = None
  /\ sent PUT tr = [] /\ alerts tr = [] /\ reloads tr = 0%nat.
Proof.
  cbv zeta. split; [reflexivity | split; [reflexivity | ]].
  apply (read_failure_ends_silently
           (imports := Sample.imports)
           {| server := fun _ => Success Sample.created;
              disk := fun _ => None |}
           Sample.data_zip Sample.component Sample.created);
    reflexivity.
Defined.

(** The upload of [data.zip] when all is well: the PUT goes to bundle
    [0x9c41] with the two bytes read. *)
Lemma content_upload_payload_witness :
  server Sample.all_well
         (createRequest (imports := Sample.imports)
                        (props Sample.component) Sample.data_zip)
  = Success {| data := [{| id := "0x9c41" |}] |}
  /\ disk Sample.all_well Sample.data_zip = Some Sample.bytes
  /\ sent PUT (snd (attempt (imports := Sample.imports) Sample.all_well
                            (Some Sample.data_zip) Sample.component))
     = [{| req_url := "/rest/bundles/0x9c41/contents/blob/?finalize=1&filename=data.zip&unpack=1";
           req_type := PUT;
           req_contentType := "application/octet-stream";
           req_data := Blob Sample.bytes |}].
Proof.
  split; [reflexivity | split; [reflexivity | ]].
  apply (content_upload_payload
           (imports := Sample.imports) Sample.all_well Sample.data_zip
           Sample.component {| id := "0x9c41" |} [] Sample.bytes);
    reflexivity.
Defined.

(** The refused metadata creation of [notes.txt]: after the failure
    comes the alert and nothing else. *)
Lemma failure_ends_the_attempt_witness :
  let tr := snd (attempt (imports := Sample.imports) Sample.create_fails
                         (Some Sample.notes_txt) Sample.component) in
  let post := createRequest (imports := Sample.imports)
                            (props Sample.component) Sample.notes_txt in
  tr = firstn 1 tr ++ Failed post Sample.refused :: skipn 2 tr
  /\ exists text, skipn 2 tr = [Alerted text].
Proof.
  cbv zeta. split; [reflexivity | ].
  apply (failure_ends_the_attempt
           (imports := Sample.imports) Sample.create_fails
           (Some Sample.notes_txt) Sample.component
           (firstn 1 (snd (attempt (imports := Sample.imports)
                                   Sample.create_fails
                                   (Some Sample.notes_txt)
                                   Sample.component)))
           (skipn 2 (snd (attempt (imports := Sample.imports)
                                  Sample.create_fails
                                  (Some Sample.notes_txt)
                                  Sample.component)))
           (createRequest (imports := Sample.imports)
                          (props Sample.component) Sample.notes_txt)
           Sample.refused).
  reflexivity.
Defined.

(** Adding [nlp] to [nlp; baseline] leaves the one [baseline]. *)
Lemma add_tag_counts_witness :
  "baseline" <> "nlp"
  /\ count_occ string_dec
               (tags (setState (onValueAdd "nlp") (state Sample.component)))
               "baseline"
     = count_occ string_dec (tags (state Sample.component)) "baseline".
Proof.
  split; [discriminate | ].
  apply (add_tag_counts (state Sample.component) "nlp" "baseline").
  discriminate.
Defined.

(** Deleting [nlp] at index 0 and adding [dev], in either order. *)
Lemma delete_add_commute_witness :
  let s := state Sample.component in
  0 <= 0 < Z.of_nat (List.length (tags s))
  /\ tags (setState (onValueDelete "nlp" 0) (setState (onValueAdd "dev") s))
     = tags (setState (onValueAdd "dev") (setState (onValueDelete "nlp" 0) s)).
Proof.
  cbv zeta. split; [cbn; lia | ].
  apply (delete_add_commute (state Sample.component) "dev" "nlp" 0).
  cbn; lia.
Defined.

(** Index -2 on [nlp; baseline] removes [nlp], the element at 0. *)
Lemma delete_counts_from_end_witness :
  let s := state Sample.component in
  - Z.of_nat (List.length (tags s)) <= -2 <= -2
  /\ exists before x after,
      tags s = before ++ x :: after
      /\ Z.of_nat (List.length before) = Z.of_nat (List.length (tags s)) + -2
      /\ tags (setState (onValueDelete "nlp" (-2)) s) = before ++ after.
Proof.
  cbv zeta. split; [cbn; lia | ].
  apply (delete_counts_from_end (state Sample.component) "nlp" (-2)).
  cbn; lia.
Defined.

(** Index -3 on [nlp; baseline] is below the range. *)
Lemma delete_below_range_witness :
  let s := state Sample.component in
  -3 < - Z.of_nat (List.length (tags s))
  /\ tags (setState (onValueDelete "nlp" (-3)) s) = tags s.
Proof.
  cbv zeta. split; [cbn; lia | ].
  apply (delete_below_range (state Sample.component) "nlp" (-3)).
  cbn; lia.
Defined.

(** Renaming and tagging, in either order. *)
Lemma edits_of_different_fields_commute_witness :
  let s := state Sample.component in
  fieldOf (ChangeName "run-2") = Some "name"
  /\ fieldOf (AddTag "dev") = Some "tags"
  /\ "name" <> "tags"
  /\ edit (edit s (ChangeName "run-2")) (AddTag "dev")
     = edit (edit s (AddTag "dev")) (ChangeName "run-2").
Proof.
  cbv zeta.
  split; [reflexivity | split; [reflexivity | split; [discriminate | ]]].
  apply (edits_of_different_fields_commute
           (state Sample.component) (ChangeName "run-2") (AddTag "dev")
           "name" "tags");
    [reflexivity | reflexivity | discriminate].
Defined.
